(** * update_xcode_project.py: the path existence reporter

    A shallow embedding of [update_xcode_project.py].  The script builds a
    dict literal of Swift source files, probes each one with
    [os.path.exists] under a fixed directory, prints one status line per
    entry and then a fixed block of instructions.

    Python [str] values are modelled as [string] holding their UTF-8
    bytes; the dict is an insertion-ordered association list living in
    the store; standard output is the list of the arguments of the
    [print] calls, in order (each call writes its argument and a line
    feed); the filesystem is a read-only oracle answering [os.stat]. *)

From Stdlib Require Import List String Ascii Bool Arith Lia.
Import ListNotations.
Open Scope string_scope.

(** ** Python strings *)

Definition LF : string := String "010" EmptyString.

(** [s * n] on [str]. *)
Fixpoint str_mul (s : string) (n : nat) : string :=
  match n with
  | O => EmptyString
  | S k => s ++ str_mul s k
  end.

(** [needle in s] on [str]. *)
Fixpoint str_contains (needle s : string) : bool :=
  if String.prefix needle s then true
  else match s with
       | EmptyString => false
       | String _ r => str_contains needle r
       end.

(** ** Insertion-ordered dicts *)

Definition dict := list (string * string).

(** [d[k] = v]: an existing key keeps its position, a new one goes last. *)
Fixpoint dict_setitem (d : dict) (k v : string) : dict :=
  match d with
  | [] => [(k, v)]
  | (k', v') :: r =>
      if String.eqb k' k then (k', v) :: r
      else (k', v') :: dict_setitem r k v
  end.

(** A dict display [{k1: v1, ..., kn: vn}] inserts its pairs left to right. *)
Definition dict_display (kvs : list (string * string)) : dict :=
  fold_left (fun d kv => dict_setitem d (fst kv) (snd kv)) kvs [].

Definition dict_keys (d : dict) : list string := map fst d.

(** ** The filesystem seen through [os.stat] *)

Inductive file_type : Set :=
  S_IFREG | S_IFDIR | S_IFCHR | S_IFBLK | S_IFIFO | S_IFSOCK.

Inductive errno : Set := ENOENT | ENOTDIR | EACCES | ELOOP | ENAMETOOLONG.

Inductive stat_result : Set :=
| st_mode (t : file_type)
| stat_error (e : errno).

(** What [stat(2)] answers for each path (symbolic links followed). *)
Definition filesystem := string -> stat_result.

(** ** Exceptions, the store and the execution monad *)

Inductive exn : Set :=
| OSError (e : errno)
| UnboundLocalError (name : string)
| RuntimeError (msg : string)
| SystemExit (code : nat).

Inductive outcome (A : Type) : Type :=
| Returned (a : A)
| Raised (e : exn).
Arguments Returned {A} a.
Arguments Raised {A} e.

Record world : Type := mkWorld {
  w_swift_files : option dict;  (* the local [swift_files], unbound at entry *)
  w_stdout : list string;       (* arguments of the [print] calls so far *)
  w_probed : list string        (* paths handed to [os.stat] so far *)
}.

Definition initial_world : world := mkWorld None [] [].

(** A computation maps a store to its outcome, the final store and the
    stores reached after each primitive step it took. *)
Definition M (A : Type) : Type := world -> outcome A * world * list world.

Definition ret {A} (a : A) : M A := fun w => (Returned a, w, []).

Definition raise {A} (e : exn) : M A := fun w => (Raised e, w, []).

Definition bind {A B} (m : M A) (f : A -> M B) : M B :=
  fun w =>
    match m w with
    | (Returned a, w1, t1) =>
        let '(r, w2, t2) := f a w1 in (r, w2, (t1 ++ t2)%list)
    | (Raised e, w1, t1) => (Raised e, w1, t1)
    end.

Definition try_except {A} (m : M A) (handler : exn -> M A) : M A :=
  fun w =>
    match m w with
    | (Returned a, w1, t1) => (Returned a, w1, t1)
    | (Raised e, w1, t1) =>
        let '(r, w2, t2) := handler e w1 in (r, w2, (t1 ++ t2)%list)
    end.

Definition step {A} (f : world -> outcome A * world) : M A :=
  fun w => let '(r, w') := f w in (r, w', [w']).

Notation "x <- m ;; k" := (bind m (fun x => k))
  (at level 61, m at next level, right associativity).
Notation "m ;; k" := (bind m (fun _ => k))
  (at level 61, right associativity).

Definition result {A} (x : outcome A * world * list world) : outcome A :=
  fst (fst x).
Definition final {A} (x : outcome A * world * list world) : world :=
  snd (fst x).
Definition trace {A} (x : outcome A * world * list world) : list world :=
  snd x.

(** ** Primitive steps *)

Definition print (s : string) : M unit :=
  step (fun w =>
    (Returned tt,
     mkWorld (w_swift_files w) (w_stdout w ++ [s])%list (w_probed w))).

Definition store_swift_files (d : dict) : M unit :=
  step (fun w => (Returned tt, mkWorld (Some d) (w_stdout w) (w_probed w))).

Definition os_stat (fs : filesystem) (path : string) : M file_type :=
  step (fun w =>
    let w' := mkWorld (w_swift_files w) (w_stdout w) (w_probed w ++ [path])%list in
    match fs path with
    | st_mode t => (Returned t, w')
    | stat_error e => (Raised (OSError e), w')
    end).

(** [os.path.exists]: [os.stat] succeeded; an [OSError] is caught and
    means absent, for whatever reason [os.stat] failed.  (The [ValueError]
    of a path with an embedded NUL is left out: no probed path has one.) *)
Definition os_path_exists (fs : filesystem) (path : string) : M bool :=
  try_except (os_stat fs path ;; ret true)
             (fun e => match e with
                       | OSError _ => ret false
                       | _ => raise e
                       end).

(** [iter(swift_files.items())]: the iterator remembers the size of the
    dict and its own position, and reads the dict in the store each time. *)
Definition dictiter_next (len0 i : nat) : M (option (string * string)) :=
  step (fun w =>
    match w_swift_files w with
    | None => (Raised (UnboundLocalError "swift_files"), w)
    | Some d =>
        if Nat.eqb (List.length d) len0 then (Returned (nth_error d i), w)
        else (Raised (RuntimeError "dictionary changed size during iteration"), w)
    end).

Definition len_swift_files : M nat :=
  step (fun w =>
    match w_swift_files w with
    | None => (Raised (UnboundLocalError "swift_files"), w)
    | Some d => (Returned (List.length d), w)
    end).

(** [for path, name in swift_files.items(): body].  The iterator yields
    at most [len0] items before it is exhausted, so [S len0] rounds
    always reach the end of the loop. *)
Fixpoint for_items_from (rounds len0 i : nat)
    (body : string -> string -> M unit) : M unit :=
  match rounds with
  | O => ret tt
  | S r =>
      item <- dictiter_next len0 i ;;
      match item with
      | None => ret tt
      | Some (path, name) => body path name ;; for_items_from r len0 (S i) body
      end
  end.

Definition for_items (body : string -> string -> M unit) : M unit :=
  len0 <- len_swift_files ;;
  for_items_from (S len0) len0 0 body.

(** ** The script *)

(** The dict display bound to [swift_files] at the head of the function. *)
Definition swift_files : dict :=
  dict_display [
    (* Models *)
    ("Models/Phase.swift", "Phase.swift");
    ("Models/Schedule.swift", "Schedule.swift");
    ("Models/SessionRecord.swift", "SessionRecord.swift");
    ("Models/PendingTransition.swift", "PendingTransition.swift");
    ("Models/DailyStats.swift", "DailyStats.swift");
    (* Services *)
    ("Services/TimerEngine.swift", "TimerEngine.swift");
    ("Services/SessionManager.swift", "SessionManager.swift");
    ("Services/TransitionManager.swift", "TransitionManager.swift");
    ("Services/NotificationService.swift", "NotificationService.swift");
    (* ViewModels *)
    ("ViewModels/PhaseCoordinator.swift", "PhaseCoordinator.swift");
    (* Views *)
    ("Views/MenuBarView.swift", "MenuBarView.swift");
    ("Views/SettingsView.swift", "SettingsView.swift");
    ("Views/Components/HeaderView.swift", "HeaderView.swift");
    ("Views/Components/ActiveSessionView.swift", "ActiveSessionView.swift");
    ("Views/Components/StatsView.swift", "StatsView.swift");
    ("Views/Components/ControlsView.swift", "ControlsView.swift");
    ("Views/Components/FooterView.swift", "FooterView.swift");
    (* Utilities *)
    ("Utilities/TimeFormatter.swift", "TimeFormatter.swift")
  ].

Definition generate_file_references (fs : filesystem) : M unit :=
  store_swift_files swift_files ;;
  print "New Swift files to add to Xcode project:" ;;
  print (str_mul "=" 50) ;;
  for_items (fun path name =>
    let full_path := "MoveIt/" ++ path in
    found <- os_path_exists fs
               ("/Users/vladislav_k/Code/Personal/MoveIt/" ++ full_path) ;;
    if found then print ("✅ " ++ full_path)
    else print ("❌ " ++ full_path ++ " - NOT FOUND")) ;;
  print (LF ++ str_mul "=" 50) ;;
  print (LF ++ "To add these files to Xcode:") ;;
  print "1. Open MoveIt.xcodeproj in Xcode" ;;
  print "2. Right-click on the MoveIt folder in the project navigator" ;;
  print "3. Select 'Add Files to MoveIt...'" ;;
  print "4. Navigate to each folder (Models, Services, etc.) and add all .swift files" ;;
  print "5. Make sure 'Copy items if needed' is UNCHECKED" ;;
  print "6. Make sure 'Add to targets: MoveIt' is CHECKED" ;;
  print (LF ++ "Alternatively, drag and drop the folders into Xcode project navigator").

(** The module body after its imports and the [def]: the [__name__]
    guard.  (What the interpreter does for the three [import] statements
    and for binding the function name is not modelled.) *)
Definition module_body (fs : filesystem) (name__ : string) : M unit :=
  if String.eqb name__ "__main__" then generate_file_references fs
  else ret tt.

(** Running [python3 update_xcode_project.py]: the exit status is 0 when
    the module body returns, the argument of an uncaught [SystemExit],
    and 1 for any other uncaught exception.  The script never reads
    [argv] or [environ].  Standard output is taken to accept the text
    it is given: a stream that cannot encode the two marks, or that is
    closed, is outside the model. *)
Record completed : Type := mkCompleted {
  exit_status : nat;
  stdout : list string;      (* what was printed *)
  stat_calls : list string;  (* the paths handed to [os.stat], in order *)
  crashed : bool             (* ended by an uncaught exception *)
}.

Definition run_script (argv : list string) (environ : list (string * string))
    (fs : filesystem) : completed :=
  let x := module_body fs "__main__" initial_world in
  mkCompleted
    (match result x with
     | Returned _ => 0
     | Raised (SystemExit n) => n
     | Raised _ => 1
     end)
    (w_stdout (final x))
    (w_probed (final x))
    (match result x with Returned _ => false | Raised _ => true end).

(** ** Vocabulary of the report *)

Definition base_directory : string := "/Users/vladislav_k/Code/Personal/MoveIt".

Definition project_subdirectory : string := "MoveIt".

(** The probed location in the words of the specification: base directory,
    project subdirectory and relative path, joined with ["/"]. *)
Definition joined_location (rel : string) : string :=
  String.concat "/" [base_directory; project_subdirectory; rel].

(** The answer of [os.path.exists] as a function of the filesystem. *)
Definition exists_on_disk (fs : filesystem) (location : string) : bool :=
  match fs location with
  | st_mode _ => true
  | stat_error _ => false
  end.


Definition success_line (rel : string) : string := "✅ MoveIt/" ++ rel.

Definition failure_line (rel : string) : string :=
  "❌ MoveIt/" ++ rel ++ " - NOT FOUND".

Definition check_line (fs : filesystem) (rel : string) : string :=
  if exists_on_disk fs (joined_location rel) then success_line rel
  else failure_line rel.

(** The file-check phase of a report for filesystem [fs]. *)
Definition check_lines (fs : filesystem) : list string :=
  map (check_line fs) (dict_keys swift_files).

Definition banner : list string :=
  [ "New Swift files to add to Xcode project:";
    "==================================================" ].

(** The instructional block, one element per [print] call. *)
Definition instructions : list string :=
  [ LF ++ "==================================================";
    LF ++ "To add these files to Xcode:";
    "1. Open MoveIt.xcodeproj in Xcode";
    "2. Right-click on the MoveIt folder in the project navigator";
    "3. Select 'Add Files to MoveIt...'";
    "4. Navigate to each folder (Models, Services, etc.) and add all .swift files";
    "5. Make sure 'Copy items if needed' is UNCHECKED";
    "6. Make sure 'Add to targets: MoveIt' is CHECKED";
    LF ++ "Alternatively, drag and drop the folders into Xcode project navigator" ].

(** The steps of a run: each store of the run paired with its successor. *)
Definition steps_of (x : outcome unit * world * list world)
    (start : world) : list (world * world) :=
  combine (start :: trace x) (trace x).

(** A filesystem with nothing under the base directory. *)
Definition base_directory_missing (fs : filesystem) : Prop :=
  forall rest, fs (base_directory ++ rest) = stat_error ENOENT.

Definition empty_filesystem : filesystem := fun _ => stat_error ENOENT.


(** A filesystem with a regular file at each listed location. *)
Definition files_at (locations : list string) : filesystem :=
  fun p => if existsb (String.eqb p) locations then st_mode S_IFREG
           else stat_error ENOENT.

(** ** Vocabulary of the further properties *)

(** The text written to standard output: every [print] call writes its
    argument followed by a line feed. *)
Definition stdout_text (c : completed) : string :=
  fold_right (fun s rest => s ++ LF ++ rest) EmptyString (stdout c).

(** The number of line feeds of a text. *)
Fixpoint line_feeds (s : string) : nat :=
  match s with
  | EmptyString => 0
  | String c r => (if Ascii.eqb c "010"%char then 1 else 0) + line_feeds r
  end.

(** A filesystem where [os.stat] fails with [e] for every path. *)
Definition failing_filesystem (e : errno) : filesystem :=
  fun _ => stat_error e.

(** A filesystem with a regular file at every path. *)
Definition full_filesystem : filesystem := fun _ => st_mode S_IFREG.

(** [m] run from [w] returns [a] in [w'], passing through the stores [t]. *)
Definition runs_exactly {A} (m : M A) (w : world) (a : A) (w' : world)
    (t : list world) : Prop :=
  m w = (Returned a, w', t).

(** The stores a loop over the keys [ks] passes through, when each round
    asks the iterator, probes [where_ k] and prints [line k]; the last
    store is the one where the iterator is found exhausted. *)
Fixpoint loop_trace (d : dict) (line where_ : string -> string)
    (ks : list string) (out pr : list string) : list world :=
  match ks with
  | [] => [mkWorld (Some d) out pr]
  | k :: r =>
      mkWorld (Some d) out pr
      :: mkWorld (Some d) out (pr ++ [where_ k])%list
      :: mkWorld (Some d) (out ++ [line k])%list (pr ++ [where_ k])%list
      :: loop_trace d line where_ r
           (out ++ [line k])%list (pr ++ [where_ k])%list
  end.

(** What has been printed and probed in [w] is the beginning of what the
    whole run prints and probes ([out] and [pr]), and the probes are at
    most one ahead of the check lines printed: with [n] lines printed
    and [m] probes made, [min 18 (n - 2) <= m <= min 18 (n - 1)]. *)
Definition in_step_with (out pr : list string) (w : world) : Prop :=
  w_stdout w = firstn (List.length (w_stdout w)) out /\
  w_probed w = firstn (List.length (w_probed w)) pr /\
  Nat.min 18 (List.length (w_stdout w) - 2) <= List.length (w_probed w) /\
  List.length (w_probed w) <= Nat.min 18 (List.length (w_stdout w) - 1).

(** The store in which the first [n] lines of the report of [fs] have
    been printed and the first [m] probes made. *)
Definition world_at (fs : filesystem) (nm : nat * nat) : world :=
  mkWorld (Some swift_files)
    (firstn (fst nm) (banner ++ check_lines fs ++ instructions)%list)
    (firstn (snd nm) (map joined_location (dict_keys swift_files))).

(** Lines printed and probes made after each step of a run: binding the
    dict, the two banner lines, creating the iterator, then for each of
    the 18 entries asking the iterator, probing and printing, then the
    exhausted iterator and the nine prints of the instructions. *)
Definition run_schedule : list (nat * nat) :=
  ([(0, 0); (1, 0); (2, 0); (2, 0)]
   ++ flat_map (fun i => [(2 + i, i); (2 + i, S i); (3 + i, S i)]) (seq 0 18)
   ++ [(20, 18)]
   ++ map (fun j => (20 + j, 18)) (seq 1 9))%list.

(** * Properties *)

(** ** Running computations *)

(** [runs d m w a w']: from [w] the computation returns [a] in [w'], and
    every store it passes through binds [swift_files] to [d]. *)
Definition runs {A} (d : dict) (m : M A) (w : world) (a : A) (w' : world) : Prop :=
  result (m w) = Returned a /\
  final (m w) = w' /\
  Forall (fun x => w_swift_files x = Some d) (trace (m w)).

Lemma runs_ret {A} d (a : A) w : runs d (ret a) w a w.
Proof. repeat split; constructor. Qed.

Lemma runs_bind {A B} d (m : M A) (f : A -> M B) w a w1 b w2 :
  runs d m w a w1 -> runs d (f a) w1 b w2 -> runs d (bind m f) w b w2.
Proof.
  unfold runs, result, final, trace, bind.
  destruct (m w) as [[r w1'] t1]; simpl.
  intros (-> & -> & H1).
  destruct (f a w1) as [[r2 w2'] t2]; simpl.
  intros (-> & -> & H2).
  repeat split; auto using Forall_app.
  apply Forall_app; auto.
Qed.

Lemma runs_print d s out pr :
  runs d (print s) (mkWorld (Some d) out pr) tt
       (mkWorld (Some d) (out ++ [s])%list pr).
Proof. repeat split; repeat constructor. Qed.

Lemma runs_store d w :
  runs d (store_swift_files d) w tt (mkWorld (Some d) (w_stdout w) (w_probed w)).
Proof. repeat split; repeat constructor. Qed.

Lemma runs_len d out pr :
  runs d len_swift_files (mkWorld (Some d) out pr) (List.length d)
       (mkWorld (Some d) out pr).
Proof. repeat split; repeat constructor. Qed.

Lemma runs_next d i out pr :
  runs d (dictiter_next (List.length d) i) (mkWorld (Some d) out pr)
       (nth_error d i) (mkWorld (Some d) out pr).
Proof.
  unfold runs, dictiter_next, step, result, final, trace; simpl.
  rewrite Nat.eqb_refl; simpl. repeat split; repeat constructor.
Qed.

Lemma runs_exists d fs p out pr :
  runs d (os_path_exists fs p) (mkWorld (Some d) out pr)
       (exists_on_disk fs p) (mkWorld (Some d) out (pr ++ [p])%list).
Proof.
  unfold runs, os_path_exists, try_except, bind, os_stat, step, ret,
    exists_on_disk, result, final, trace; simpl.
  destruct (fs p); simpl; repeat split; repeat constructor.
Qed.

Lemma nth_error_skipn {A} (l : list A) i x :
  nth_error l i = Some x -> skipn i l = x :: skipn (S i) l.
Proof.
  revert l; induction i as [|i IH]; intros [|y l]; simpl; try discriminate.
  - now intros [= ->].
  - intros H. now rewrite (IH l H).
Qed.

Lemma nth_error_skipn_none {A} (l : list A) i :
  nth_error l i = None -> skipn i l = [].
Proof.
  intros H. apply skipn_all2. now apply nth_error_None.
Qed.

(** The loop over the items of the dict in the store, for any body that
    prints one line and records one probe per item. *)
Section Loop.
Variable d : dict.
Variable body : string -> string -> M unit.
Variables line where_ : string -> string.
Hypothesis body_runs : forall path name out pr,
  runs d (body path name) (mkWorld (Some d) out pr) tt
       (mkWorld (Some d) (out ++ [line path])%list (pr ++ [where_ path])%list).

Lemma runs_for_items_from rounds : forall i out pr,
  List.length d < rounds + i ->
  runs d (for_items_from rounds (List.length d) i body)
       (mkWorld (Some d) out pr) tt
       (mkWorld (Some d)
          (out ++ map line (dict_keys (skipn i d)))%list
          (pr ++ map where_ (dict_keys (skipn i d)))%list).
Proof.
  induction rounds as [|r IH]; intros i out pr Hlt.
  - simpl in Hlt.
    rewrite (skipn_all2 d) by lia. simpl. rewrite !app_nil_r.
    apply runs_ret.
  - simpl. eapply runs_bind; [apply runs_next|].
    destruct (nth_error d i) as [[path name]|] eqn:E.
    + rewrite (nth_error_skipn _ _ _ E).
      set (rest := skipn (S i) d). simpl.
      eapply runs_bind; [apply body_runs|].
      replace (out ++ line path :: map line (dict_keys rest))%list
        with ((out ++ [line path]) ++ map line (dict_keys rest))%list
        by (rewrite <- app_assoc; reflexivity).
      replace (pr ++ where_ path :: map where_ (dict_keys rest))%list
        with ((pr ++ [where_ path]) ++ map where_ (dict_keys rest))%list
        by (rewrite <- app_assoc; reflexivity).
      subst rest.
      apply IH. lia.
    + rewrite (nth_error_skipn_none _ _ E). simpl. rewrite !app_nil_r.
      apply runs_ret.
Qed.

Lemma runs_for_items out pr :
  runs d (for_items body) (mkWorld (Some d) out pr) tt
       (mkWorld (Some d) (out ++ map line (dict_keys d))%list
                (pr ++ map where_ (dict_keys d))%list).
Proof.
  unfold for_items. eapply runs_bind; [apply runs_len|].
  apply (runs_for_items_from (S (List.length d)) 0 out pr). lia.
Qed.
End Loop.

(** ** What one run does *)

Lemma runs_final {A} d (m : M A) w a w1 w2 :
  runs d m w a w1 -> w1 = w2 -> runs d m w a w2.
Proof. now intros H <-. Qed.

Lemma check_line_cases fs rel :
  (exists_on_disk fs (joined_location rel) = true /\
   check_line fs rel = success_line rel) \/
  (exists_on_disk fs (joined_location rel) = false /\
   check_line fs rel = failure_line rel).
Proof.
  unfold check_line.
  destruct (exists_on_disk fs (joined_location rel)); auto.
Qed.

(** The whole function, from the store at entry. *)
Lemma generate_runs fs :
  runs swift_files (generate_file_references fs) initial_world tt
       (mkWorld (Some swift_files)
          (banner ++ check_lines fs ++ instructions)%list
          (map joined_location (dict_keys swift_files))).
Proof.
  unfold generate_file_references.
  eapply runs_bind; [apply runs_store|].
  eapply runs_bind; [apply runs_print|].
  eapply runs_bind; [apply runs_print|].
  eapply runs_bind.
  { apply runs_for_items
      with (line := check_line fs) (where_ := joined_location).
    intros path name out pr. cbv zeta.
    eapply runs_bind; [apply runs_exists|].
    change ("/Users/vladislav_k/Code/Personal/MoveIt/" ++ "MoveIt/" ++ path)
      with (joined_location path).
    unfold check_line.
    destruct (exists_on_disk fs (joined_location path)); apply runs_print. }
  do 8 (eapply runs_bind; [apply runs_print|]).
  eapply runs_final; [apply runs_print|].
  unfold check_lines, banner, instructions, initial_world.
  cbn [w_stdout w_probed].
  reflexivity.
Qed.

Lemma module_body_main fs :
  module_body fs "__main__" = generate_file_references fs.
Proof. reflexivity. Qed.

Lemma run_script_stdout argv environ fs :
  stdout (run_script argv environ fs)
  = (banner ++ check_lines fs ++ instructions)%list.
Proof.
  unfold run_script. rewrite module_body_main.
  destruct (generate_runs fs) as (_ & -> & _). reflexivity.
Qed.

Lemma run_script_stat_calls argv environ fs :
  stat_calls (run_script argv environ fs)
  = map joined_location (dict_keys swift_files).
Proof.
  unfold run_script. rewrite module_body_main.
  destruct (generate_runs fs) as (_ & -> & _). reflexivity.
Qed.

Lemma run_script_returns argv environ fs :
  crashed (run_script argv environ fs) = false /\
  exit_status (run_script argv environ fs) = 0.
Proof.
  unfold run_script. rewrite module_body_main.
  destruct (generate_runs fs) as (-> & _ & _). split; reflexivity.
Qed.

Lemma swift_files_length : List.length swift_files = 18.
Proof. reflexivity. Qed.

Lemma check_lines_length fs : List.length (check_lines fs) = 18.
Proof. unfold check_lines, dict_keys. now rewrite !length_map. Qed.

(** ** Facts about the report lines *)

Lemma append_length s t : String.length (s ++ t) = String.length s + String.length t.
Proof. induction s as [|c s IH]; simpl; auto. Qed.

Lemma append_cancel_l p a b : p ++ a = p ++ b -> a = b.
Proof. induction p as [|c p IH]; simpl; [auto|]. intros [= H]. auto. Qed.

Lemma append_cancel_r s : forall a b, a ++ s = b ++ s -> a = b.
Proof.
  induction a as [|c a IH]; intros [|c' b] H; simpl in H.
  - reflexivity.
  - exfalso. apply (f_equal String.length) in H.
    simpl in H. rewrite append_length in H. lia.
  - exfalso. apply (f_equal String.length) in H.
    simpl in H. rewrite append_length in H. lia.
  - injection H as -> H. f_equal. auto.
Qed.

Lemma success_line_inj a b : success_line a = success_line b -> a = b.
Proof. apply append_cancel_l. Qed.

Lemma failure_line_inj a b : failure_line a = failure_line b -> a = b.
Proof.
  unfold failure_line. intros H.
  apply append_cancel_l in H. now apply append_cancel_r in H.
Qed.

Lemma success_not_failure a b : success_line a <> failure_line b.
Proof. unfold success_line, failure_line; simpl. discriminate. Qed.

Lemma check_line_inj fs a b : check_line fs a = check_line fs b -> a = b.
Proof.
  destruct (check_line_cases fs a) as [[_ ->]|[_ ->]],
           (check_line_cases fs b) as [[_ ->]|[_ ->]]; intros H.
  - now apply success_line_inj.
  - now apply success_not_failure in H.
  - symmetry in H. now apply success_not_failure in H.
  - now apply failure_line_inj.
Qed.

Lemma check_line_not_fixed fs rel s :
  In s (banner ++ instructions)%list -> check_line fs rel <> s.
Proof.
  intros H E. subst s.
  destruct (check_line_cases fs rel) as [[_ E]|[_ E]]; rewrite E in H;
    simpl in H; repeat (destruct H as [H|H]; [discriminate H|]); exact H.
Qed.

Lemma swift_files_keys_nodup : NoDup (dict_keys swift_files).
Proof.
  repeat (constructor; [simpl; intuition discriminate|]). constructor.
Qed.

Lemma check_lines_nodup fs : NoDup (check_lines fs).
Proof.
  apply NoDup_map_NoDup_ForallPairs; [|apply swift_files_keys_nodup].
  intros a b _ _. apply check_line_inj.
Qed.

Lemma fixed_lines_nodup : NoDup (banner ++ instructions)%list.
Proof.
  repeat (constructor; [simpl; intuition discriminate|]). constructor.
Qed.

(** No line of a report is printed twice. *)
Lemma report_nodup fs : NoDup (banner ++ check_lines fs ++ instructions)%list.
Proof.
  pose proof fixed_lines_nodup as F.
  apply NoDup_app.
  - apply (NoDup_app_remove_r _ _ F).
  - apply NoDup_app.
    + apply check_lines_nodup.
    + apply (NoDup_app_remove_l _ _ F).
    + intros s Hs Hi. apply in_map_iff in Hs as (k & <- & _).
      apply (check_line_not_fixed fs k (check_line fs k)); auto.
      apply in_or_app; auto.
  - intros s Hb Hr. apply in_app_or in Hr as [Hr|Hr].
    + apply in_map_iff in Hr as (k & <- & _).
      apply (check_line_not_fixed fs k (check_line fs k)); auto.
      apply in_or_app; auto.
    + destruct Hb as [<-|[<-|[]]]; simpl in Hr; intuition discriminate.
Qed.

Lemma named_line_in_report fs rel s :
  s = success_line rel \/ s = failure_line rel ->
  In s (banner ++ check_lines fs ++ instructions)%list ->
  check_line fs rel = s.
Proof.
  intros Hs Hin.
  apply in_app_or in Hin as [Hin|Hin]; [|apply in_app_or in Hin as [Hin|Hin]].
  - exfalso. destruct Hs as [-> | ->]; simpl in Hin;
      repeat (destruct Hin as [Hin|Hin]; [discriminate Hin|]); exact Hin.
  - apply in_map_iff in Hin as (k & Hk & _).
    assert (k = rel) as ->; [|exact Hk].
    destruct (check_line_cases fs k) as [[_ E]|[_ E]]; rewrite E in Hk;
      destruct Hs as [-> | ->].
    + now apply success_line_inj.
    + now apply success_not_failure in Hk.
    + symmetry in Hk. now apply success_not_failure in Hk.
    + now apply failure_line_inj.
  - exfalso. destruct Hs as [-> | ->]; simpl in Hin;
      repeat (destruct Hin as [Hin|Hin]; [discriminate Hin|]); exact Hin.
Qed.

Lemma check_line_in_report fs rel :
  In rel (dict_keys swift_files) ->
  In (check_line fs rel) (banner ++ check_lines fs ++ instructions)%list.
Proof.
  intros H. apply in_or_app; right. apply in_or_app; left.
  now apply in_map.
Qed.

Lemma entry_key path name :
  In (path, name) swift_files -> In path (dict_keys swift_files).
Proof. intros H. apply (in_map fst) in H. exact H. Qed.

(** The position of the line of the [i]-th entry. *)
Lemma report_nth fs i e :
  nth_error swift_files i = Some e ->
  nth_error (banner ++ check_lines fs ++ instructions)%list (2 + i)
  = Some (check_line fs (fst e)).
Proof.
  intros H.
  assert (i < 18) as Hi.
  { rewrite <- swift_files_length. apply nth_error_Some. congruence. }
  rewrite nth_error_app2 by (simpl; lia).
  replace (2 + i - List.length banner) with i by (simpl; lia).
  rewrite nth_error_app1 by (rewrite check_lines_length; exact Hi).
  unfold check_lines, dict_keys. rewrite !nth_error_map, H. reflexivity.
Qed.

Lemma report_position_unique fs p q s :
  nth_error (banner ++ check_lines fs ++ instructions)%list p = Some s ->
  nth_error (banner ++ check_lines fs ++ instructions)%list q = Some s ->
  p = q.
Proof.
  intros Hp Hq.
  apply (proj1 (NoDup_nth_error _) (report_nodup fs)).
  - apply nth_error_Some. congruence.
  - congruence.
Qed.

Lemma unique_split {A} (x : A) : forall l1 r1 l2 r2,
  NoDup (l1 ++ x :: r1) -> (l1 ++ x :: r1 = l2 ++ x :: r2)%list ->
  l1 = l2 /\ r1 = r2.
Proof.
  induction l1 as [|y l1 IH]; intros r1 [|z l2] r2 Hnd E; simpl in *.
  - injection E as ->. auto.
  - exfalso. injection E as -> ->. inversion Hnd as [|? ? Hn _]; subst.
    apply Hn, in_elt.
  - exfalso. injection E as -> _. inversion Hnd as [|? ? Hn _]; subst.
    apply Hn, in_elt.
  - injection E as -> E. inversion Hnd as [|? ? _ Hnd']; subst.
    destruct (IH _ _ _ Hnd' E) as [-> ->]. auto.
Qed.

Lemma block_once {A} (a blk pre post : list A) :
  blk <> [] -> NoDup (a ++ blk) ->
  (a ++ blk = pre ++ blk ++ post)%list ->
  pre = a /\ post = [].
Proof.
  destruct blk as [|x tl]; [congruence|]. intros _ Hnd E.
  simpl in E.
  destruct (unique_split x a tl pre (tl ++ post)%list Hnd E) as [-> Htl].
  split; [reflexivity|].
  rewrite <- (app_nil_r tl) in Htl at 1.
  apply app_inv_head in Htl. auto.
Qed.

(** * The claims *)

(** How often the two lines of a key occur in a report. *)
Lemma entry_line_counts fs rel :
  In rel (dict_keys swift_files) ->
  let out := (banner ++ check_lines fs ++ instructions)%list in
  if exists_on_disk fs (joined_location rel)
  then In (success_line rel) out
       /\ count_occ string_dec out (success_line rel) = 1
       /\ count_occ string_dec out (failure_line rel) = 0
  else In (failure_line rel) out
       /\ count_occ string_dec out (failure_line rel) = 1
       /\ count_occ string_dec out (success_line rel) = 0.
Proof.
  intros Hk out. subst out.
  pose proof (check_line_in_report fs rel Hk) as Hin.
  pose proof (report_nodup fs) as Hnd.
  destruct (check_line_cases fs rel) as [[Hex E]|[Hex E]];
    rewrite Hex; rewrite E in Hin.
  - split; [exact Hin|]. split.
    + apply NoDup_count_occ'; assumption.
    + apply count_occ_not_In. intros Hf.
      apply (named_line_in_report fs rel) in Hf; [|now right].
      rewrite E in Hf. now apply success_not_failure in Hf.
  - split; [exact Hin|]. split.
    + apply NoDup_count_occ'; assumption.
    + apply count_occ_not_In. intros Hf.
      apply (named_line_in_report fs rel) in Hf; [|now left].
      rewrite E in Hf. symmetry in Hf. now apply success_not_failure in Hf.
Qed.

(** C1: for every entry [(path, name)] of the static mapping, when the
    constructed path exists the report contains the success line naming
    it (and not the failure line), when it does not exist the report
    contains the failure line naming it and ending in [NOT FOUND] (and
    not the success line); in both cases exactly one of the two lines is
    printed, exactly once. *)
Theorem report_marks_each_entry argv environ fs path name
    (Hentry : In (path, name) swift_files) :
  let out := stdout (run_script argv environ fs) in
  let ok := "✅ MoveIt/" ++ path in
  let missing := "❌ MoveIt/" ++ path ++ " - NOT FOUND" in
  (if exists_on_disk fs
        ("/Users/vladislav_k/Code/Personal/MoveIt/MoveIt/" ++ path)
   then In ok out /\ count_occ string_dec out ok = 1
        /\ count_occ string_dec out missing = 0
   else In missing out /\ count_occ string_dec out missing = 1
        /\ count_occ string_dec out ok = 0)
  /\ count_occ string_dec out ok + count_occ string_dec out missing = 1.
Proof.
  intros out ok missing. subst out.
  rewrite run_script_stdout.
  change ok with (success_line path) in *.
  change missing with (failure_line path) in *.
  change ("/Users/vladislav_k/Code/Personal/MoveIt/MoveIt/" ++ path)
    with (joined_location path).
  pose proof (entry_line_counts fs path (entry_key _ _ Hentry)) as H.
  cbv zeta in H.
  destruct (exists_on_disk fs (joined_location path));
    destruct H as (Hin & H1 & H0); rewrite H1, H0; auto.
Qed.

Lemma report_marks_each_entry_witness :
  In ("Models/Phase.swift", "Phase.swift") swift_files /\
  In "✅ MoveIt/Models/Phase.swift"
     (stdout (run_script [] []
        (files_at ["/Users/vladislav_k/Code/Personal/MoveIt/MoveIt/Models/Phase.swift"]))).
Proof.
  assert (In ("Models/Phase.swift", "Phase.swift") swift_files) as H
    by (left; reflexivity).
  split; [exact H|].
  exact (proj1 (proj1 (report_marks_each_entry [] []
    (files_at ["/Users/vladislav_k/Code/Personal/MoveIt/MoveIt/Models/Phase.swift"])
    "Models/Phase.swift" "Phase.swift" H))).
Defined.

Lemma check_lines_single_line fs :
  Forall (fun line => str_contains LF line = false) (check_lines fs).
Proof.
  assert (forallb (fun k => negb (str_contains LF (success_line k))
                            && negb (str_contains LF (failure_line k)))
                  (dict_keys swift_files) = true) as H by reflexivity.
  rewrite forallb_forall in H.
  apply Forall_map, Forall_forall. intros k Hk.
  specialize (H k Hk). apply andb_prop in H as [Hs Hf].
  apply negb_true_iff in Hs, Hf.
  destruct (check_line_cases fs k) as [[_ ->]|[_ ->]]; assumption.
Qed.

(** C2: whatever the probes answer, the file-check phase of the report
    (the lines between the banner and the instructions) has as many
    lines as the static mapping has entries, 18; each of them is a
    single line of output. *)
Theorem check_phase_line_count argv environ fs :
  stdout (run_script argv environ fs)
    = (banner ++ check_lines fs ++ instructions)%list /\
  List.length (check_lines fs) = List.length swift_files /\
  List.length swift_files = 18 /\
  Forall (fun line => str_contains LF line = false) (check_lines fs).
Proof.
  split; [apply run_script_stdout|].
  split; [now rewrite check_lines_length|].
  split; [reflexivity|apply check_lines_single_line].
Qed.

(** C3: the instructional block is printed verbatim exactly once, after
    every file-check line and as the last thing of the report; it is the
    same fixed text for every filesystem. *)
Theorem instructions_printed_once argv environ fs :
  stdout (run_script argv environ fs)
    = ((banner ++ check_lines fs) ++ instructions)%list /\
  (forall before after,
     stdout (run_script argv environ fs)
       = (before ++ instructions ++ after)%list ->
     before = (banner ++ check_lines fs)%list /\ after = []).
Proof.
  rewrite !run_script_stdout, !app_assoc.
  split; [reflexivity|].
  intros before after E.
  apply (block_once (banner ++ check_lines fs) instructions before after).
  - discriminate.
  - rewrite <- app_assoc. apply report_nodup.
  - rewrite E. now rewrite !app_assoc.
Qed.

Lemma instructions_printed_once_witness :
  stdout (run_script [] [] empty_filesystem)
    = ((banner ++ check_lines empty_filesystem) ++ instructions ++ [])%list /\
  (banner ++ check_lines empty_filesystem)%list
    = (banner ++ check_lines empty_filesystem)%list /\
  @nil string = [].
Proof.
  assert (stdout (run_script [] [] empty_filesystem)
          = ((banner ++ check_lines empty_filesystem)
               ++ instructions ++ [])%list) as E by reflexivity.
  split; [exact E|].
  exact (proj2 (instructions_printed_once [] [] empty_filesystem) _ _ E).
Defined.

(** C4: the file-check lines come in the order of the mapping: the line
    of the entry at index [i] is printed at position [2 + i] of the
    report and nowhere else, so the line of an earlier entry precedes
    the line of a later one. *)
Theorem check_lines_in_mapping_order argv environ fs i j e1 e2
    (Hij : i < j)
    (H1 : nth_error swift_files i = Some e1)
    (H2 : nth_error swift_files j = Some e2) :
  let out := stdout (run_script argv environ fs) in
  nth_error out (2 + i) = Some (check_line fs (fst e1)) /\
  nth_error out (2 + j) = Some (check_line fs (fst e2)) /\
  forall p q,
    nth_error out p = Some (check_line fs (fst e1)) ->
    nth_error out q = Some (check_line fs (fst e2)) ->
    p < q.
Proof.
  intros out. subst out. rewrite run_script_stdout.
  pose proof (report_nth fs i e1 H1) as P1.
  pose proof (report_nth fs j e2 H2) as P2.
  repeat split; auto.
  intros p q Hp Hq.
  rewrite (report_position_unique fs _ _ _ Hp P1).
  rewrite (report_position_unique fs _ _ _ Hq P2).
  lia.
Qed.

Lemma check_lines_in_mapping_order_witness :
  nth_error (stdout (run_script [] [] empty_filesystem)) 2
    = Some "❌ MoveIt/Models/Phase.swift - NOT FOUND" /\
  nth_error (stdout (run_script [] [] empty_filesystem)) 19
    = Some "❌ MoveIt/Utilities/TimeFormatter.swift - NOT FOUND".
Proof.
  assert (0 < 17) as Hlt by lia.
  assert (nth_error swift_files 0
          = Some ("Models/Phase.swift", "Phase.swift")) as H1 by reflexivity.
  assert (nth_error swift_files 17
          = Some ("Utilities/TimeFormatter.swift", "TimeFormatter.swift"))
    as H2 by reflexivity.
  destruct (check_lines_in_mapping_order [] [] empty_filesystem 0 17 _ _
              Hlt H1 H2) as (P1 & P2 & _).
  split; [exact P1|exact P2].
Defined.

(** C5: the locations handed to [os.stat] are, entry by entry and in the
    order of the mapping, the base directory, the project subdirectory
    and the relative path of the entry joined with ["/"]; nothing else is
    probed. *)
Theorem probed_locations argv environ fs :
  stat_calls (run_script argv environ fs)
  = map (fun rel =>
           String.concat "/"
             ["/Users/vladislav_k/Code/Personal/MoveIt"; "MoveIt"; rel])
        (dict_keys swift_files).
Proof. apply run_script_stat_calls. Qed.




(** C7: for all arguments, environments and filesystems the script runs
    to the end of the module body without raising anything, [SystemExit]
    included, and the exit status is 0. *)
Theorem exit_status_always_zero argv environ fs :
  crashed (run_script argv environ fs) = false /\
  exit_status (run_script argv environ fs) = 0.
Proof. apply run_script_returns. Qed.

Lemma check_lines_all_missing fs :
  base_directory_missing fs ->
  check_lines fs = map failure_line (dict_keys swift_files).
Proof.
  intros H. apply map_ext. intros k. unfold check_line, exists_on_disk.
  change (joined_location k)
    with (base_directory ++ "/" ++ project_subdirectory ++ "/" ++ k).
  now rewrite H.
Qed.

(** C8: when nothing exists under the base directory the script does not
    crash: every entry gets its [NOT FOUND] line, in order, and the
    instructions follow. *)
Theorem missing_base_directory_report argv environ fs
    (Hmissing : base_directory_missing fs) :
  crashed (run_script argv environ fs) = false /\
  exit_status (run_script argv environ fs) = 0 /\
  stdout (run_script argv environ fs)
  = (banner
     ++ map (fun rel => "❌ MoveIt/" ++ rel ++ " - NOT FOUND")%string
            (dict_keys swift_files)
     ++ instructions)%list.
Proof.
  destruct (run_script_returns argv environ fs) as [Hc He].
  repeat split; auto.
  rewrite run_script_stdout, (check_lines_all_missing fs Hmissing).
  reflexivity.
Qed.

Lemma missing_base_directory_report_witness :
  base_directory_missing empty_filesystem /\
  crashed (run_script [] [] empty_filesystem) = false /\
  nth_error (stdout (run_script [] [] empty_filesystem)) 5
    = Some "❌ MoveIt/Models/PendingTransition.swift - NOT FOUND".
Proof.
  assert (base_directory_missing empty_filesystem) as H
    by (intros rest; reflexivity).
  split; [exact H|].
  destruct (missing_base_directory_report [] [] empty_filesystem H)
    as (Hc & _ & Hout).
  split; [exact Hc|]. rewrite Hout. reflexivity.
Defined.

Lemma steps_after_binding {P : world -> Prop} : forall t w0,
  P w0 -> Forall P t ->
  Forall (fun st => P (fst st) /\ P (snd st)) (combine (w0 :: t) t).
Proof.
  induction t as [|a t IH]; intros w0 H0 H; [constructor|].
  inversion H as [|? ? Pa Pt]; subst.
  change (combine (w0 :: a :: t) (a :: t))
    with ((w0, a) :: combine (a :: t) t).
  constructor; [simpl; auto|]. now apply IH.
Qed.

(** The first step of the function binds the dict display. *)
Lemma trace_starts_with_binding fs :
  exists t,
    trace (generate_file_references fs initial_world)
    = mkWorld (Some swift_files) [] [] :: t.
Proof.
  unfold generate_file_references.
  set (rest := fun _ : unit => bind (print _) _).
  unfold bind at 1. cbn [store_swift_files step initial_world
                         w_stdout w_probed].
  destruct (rest tt (mkWorld (Some swift_files) [] [])) as [[r w2] t2].
  exists t2. reflexivity.
Qed.

(** C9, as stated, fails: the table is created at runtime.  The first
    step of a run takes the local [swift_files] from unbound to the
    table, so its contents are not identical before and after every
    step. *)
Lemma swift_files_bound_by_first_step :
  let steps :=
    steps_of (module_body empty_filesystem "__main__" initial_world)
             initial_world in
  nth_error steps 0
    = Some (initial_world, mkWorld (Some swift_files) [] []) /\
  w_swift_files initial_world = None /\
  w_swift_files (mkWorld (Some swift_files) [] []) = Some swift_files /\
  ~ (forall st, In st steps -> w_swift_files (fst st) = w_swift_files (snd st)).
Proof.
  intros steps.
  assert (nth_error steps 0
          = Some (initial_world, mkWorld (Some swift_files) [] [])) as H0
    by (vm_compute; reflexivity).
  split; [exact H0|]. split; [reflexivity|]. split; [reflexivity|].
  intros H. specialize (H _ (nth_error_In _ _ H0)).
  discriminate H.
Qed.

(** C9, amended: the static mapping is an ordered table of 18 entries
    with pairwise distinct keys, all relative paths, in the order of the
    source.  It is built at runtime: the first step of a run starts from
    the store at function entry, where the local is unbound, and binds
    it to exactly that table.  Every later step of the run starts and
    ends in a store whose [swift_files] is exactly that table: once
    bound, no step adds, changes or removes an entry. *)
Theorem swift_files_unchanged_once_bound fs :
  dict_keys swift_files
    = [ "Models/Phase.swift"; "Models/Schedule.swift";
        "Models/SessionRecord.swift"; "Models/PendingTransition.swift";
        "Models/DailyStats.swift"; "Services/TimerEngine.swift";
        "Services/SessionManager.swift"; "Services/TransitionManager.swift";
        "Services/NotificationService.swift";
        "ViewModels/PhaseCoordinator.swift"; "Views/MenuBarView.swift";
        "Views/SettingsView.swift"; "Views/Components/HeaderView.swift";
        "Views/Components/ActiveSessionView.swift";
        "Views/Components/StatsView.swift";
        "Views/Components/ControlsView.swift";
        "Views/Components/FooterView.swift";
        "Utilities/TimeFormatter.swift" ] /\
  NoDup (dict_keys swift_files) /\
  Forall (fun rel => String.prefix "/" rel = false) (dict_keys swift_files) /\
  List.length swift_files = 18 /\
  exists bound later,
    steps_of (module_body fs "__main__" initial_world) initial_world
      = (initial_world, bound) :: later /\
    w_swift_files initial_world = None /\
    w_swift_files bound = Some swift_files /\
    Forall (fun st =>
              w_swift_files (fst st) = Some swift_files
              /\ w_swift_files (snd st) = Some swift_files)
           later.
Proof.
  split; [reflexivity|].
  split; [apply swift_files_keys_nodup|].
  split; [repeat constructor|].
  split; [reflexivity|].
  rewrite module_body_main.
  destruct (generate_runs fs) as (_ & _ & Htrace).
  destruct (trace_starts_with_binding fs) as [t Ht].
  unfold steps_of. rewrite Ht in *.
  inversion Htrace as [|? ? Hb Ht']; subst.
  exists (mkWorld (Some swift_files) [] []),
         (combine (mkWorld (Some swift_files) [] [] :: t) t).
  repeat split.
  apply (steps_after_binding (P := fun w => w_swift_files w = Some swift_files));
    assumption.
Qed.

Lemma named_path_checks :
  forallb (fun rel =>
    forallb (fun line =>
      negb (String.eqb line ("✅ " ++ rel))
      && negb (String.eqb line ("❌ " ++ rel ++ " - NOT FOUND"))
      && negb (str_contains "/Users/vladislav_k/Code/Personal/MoveIt" line))
      [success_line rel; failure_line rel])
    (dict_keys swift_files) = true.
Proof. reflexivity. Qed.

(** C10: the file-check line of every entry names the path
    [MoveIt/<relative path>]: it is the marker followed by that path
    (and by [ - NOT FOUND] on failure); it is not the same line built on
    the bare relative path, and the base directory occurs nowhere in
    it. *)
Theorem check_line_names_project_path argv environ fs i path name
    (Hentry : nth_error swift_files i = Some (path, name)) :
  exists line,
    nth_error (stdout (run_script argv environ fs)) (2 + i) = Some line /\
    (line = "✅ " ++ "MoveIt/" ++ path
     \/ line = "❌ " ++ "MoveIt/" ++ path ++ " - NOT FOUND") /\
    line <> "✅ " ++ path /\
    line <> "❌ " ++ path ++ " - NOT FOUND" /\
    str_contains "/Users/vladislav_k/Code/Personal/MoveIt" line = false.
Proof.
  exists (check_line fs path).
  rewrite run_script_stdout.
  split; [apply (report_nth fs i (path, name) Hentry)|].
  assert (In path (dict_keys swift_files)) as Hk.
  { apply (entry_key path name). eapply nth_error_In; eauto. }
  pose proof named_path_checks as C.
  rewrite forallb_forall in C. specialize (C path Hk).
  cbn [forallb] in C.
  apply andb_prop in C as [Cs C]. apply andb_prop in C as [Cf _].
  apply andb_prop in Cs as [Cs Cs3]. apply andb_prop in Cs as [Cs1 Cs2].
  apply andb_prop in Cf as [Cf Cf3]. apply andb_prop in Cf as [Cf1 Cf2].
  apply negb_true_iff in Cs1, Cs2, Cs3, Cf1, Cf2, Cf3.
  apply String.eqb_neq in Cs1, Cs2, Cf1, Cf2.
  destruct (check_line_cases fs path) as [[_ ->]|[_ ->]].
  - split; [left; reflexivity|]. auto.
  - split; [right; reflexivity|]. auto.
Qed.

Lemma check_line_names_project_path_witness :
  nth_error swift_files 12
    = Some ("Views/Components/HeaderView.swift", "HeaderView.swift") /\
  exists line,
    nth_error (stdout (run_script [] [] empty_filesystem)) 14 = Some line /\
    str_contains "/Users/vladislav_k/Code/Personal/MoveIt" line = false.
Proof.
  assert (nth_error swift_files 12
          = Some ("Views/Components/HeaderView.swift", "HeaderView.swift"))
    as H by reflexivity.
  split; [exact H|].
  destruct (check_line_names_project_path [] [] empty_filesystem 12 _ _ H)
    as (line & Hn & _ & _ & _ & Hc).
  exists line. split; [exact Hn|exact Hc].
Defined.

(** * Further properties of the script *)

(** The value of a run, field by field. *)
Lemma run_script_value argv environ fs :
  run_script argv environ fs
  = mkCompleted 0 (banner ++ check_lines fs ++ instructions)%list
      (map joined_location (dict_keys swift_files)) false.
Proof.
  unfold run_script. rewrite module_body_main. cbv zeta.
  destruct (generate_runs fs) as (R & F & _). rewrite R, F. reflexivity.
Qed.

Lemma check_lines_agree fs1 fs2 :
  check_lines fs1 = check_lines fs2 <->
  (forall rel, In rel (dict_keys swift_files) ->
     exists_on_disk fs1 (joined_location rel)
     = exists_on_disk fs2 (joined_location rel)).
Proof.
  unfold check_lines. rewrite map_ext_in_iff.
  split; intros H rel Hrel; specialize (H rel Hrel).
  - destruct (check_line_cases fs1 rel) as [[E1 L1]|[E1 L1]],
             (check_line_cases fs2 rel) as [[E2 L2]|[E2 L2]];
      rewrite E1, E2; try reflexivity; rewrite L1, L2 in H.
    + now apply success_not_failure in H.
    + symmetry in H. now apply success_not_failure in H.
  - unfold check_line. now rewrite H.
Qed.

(** X1: for a given invocation, a run is determined by the answers of
    [os.path.exists] at the 18 probed locations: two filesystems that
    agree there give the same exit status, report and probes, whatever
    else they hold (types of the files found, reasons of the failures,
    other paths). *)
Theorem run_depends_only_on_existence argv environ fs1 fs2
    (Hagree : forall rel, In rel (dict_keys swift_files) ->
       exists_on_disk fs1 (joined_location rel)
       = exists_on_disk fs2 (joined_location rel)) :
  run_script argv environ fs1 = run_script argv environ fs2.
Proof.
  rewrite !run_script_value.
  now rewrite (proj2 (check_lines_agree fs1 fs2) Hagree).
Qed.

Lemma run_depends_only_on_existence_witness :
  run_script ["update_xcode_project.py"] [] (failing_filesystem ENOENT)
  = run_script ["update_xcode_project.py"] [] (failing_filesystem EACCES).
Proof.
  apply run_depends_only_on_existence.
  intros rel _. reflexivity.
Defined.

(** X2: the report tells which files exist: two runs that print the same
    report got the same answer from [os.path.exists] at every probed
    location. *)
Theorem report_reveals_existence argv1 environ1 fs1 argv2 environ2 fs2
    path name
    (Hsame : stdout (run_script argv1 environ1 fs1)
             = stdout (run_script argv2 environ2 fs2))
    (Hentry : In (path, name) swift_files) :
  exists_on_disk fs1 ("/Users/vladislav_k/Code/Personal/MoveIt/MoveIt/" ++ path)
  = exists_on_disk fs2 ("/Users/vladislav_k/Code/Personal/MoveIt/MoveIt/" ++ path).
Proof.
  rewrite !run_script_stdout in Hsame.
  apply app_inv_head, app_inv_tail in Hsame.
  exact (proj1 (check_lines_agree fs1 fs2) Hsame path (entry_key _ _ Hentry)).
Qed.

Lemma report_reveals_existence_witness :
  exists_on_disk (failing_filesystem ENOTDIR)
    "/Users/vladislav_k/Code/Personal/MoveIt/MoveIt/Services/TimerEngine.swift"
  = exists_on_disk empty_filesystem
      "/Users/vladislav_k/Code/Personal/MoveIt/MoveIt/Services/TimerEngine.swift".
Proof.
  assert (stdout (run_script [] [] (failing_filesystem ENOTDIR))
          = stdout (run_script [] [] empty_filesystem)) as Hsame
    by (vm_compute; reflexivity).
  assert (In ("Services/TimerEngine.swift", "TimerEngine.swift") swift_files)
    as Hentry by (vm_compute; tauto).
  exact (report_reveals_existence [] [] _ [] [] _ _ _ Hsame Hentry).
Defined.

Lemma filter_split_length {A} (f : A -> bool) (l : list A) :
  List.length (filter f l) + List.length (filter (fun x => negb (f x)) l)
  = List.length l.
Proof.
  induction l as [|x l IH]; [reflexivity|].
  cbn [filter]. destruct (f x); cbn [negb List.length]; lia.
Qed.

Lemma marked_lines_count fs (ks : list string) :
  List.length (filter (String.prefix "✅") (map (check_line fs) ks))
  = List.length (filter (fun rel => exists_on_disk fs (joined_location rel)) ks)
  /\
  List.length (filter (String.prefix "❌") (map (check_line fs) ks))
  = List.length
      (filter (fun rel => negb (exists_on_disk fs (joined_location rel))) ks).
Proof.
  induction ks as [|k ks [IHs IHf]]; [split; reflexivity|].
  cbn [map filter].
  destruct (check_line_cases fs k) as [[E ->]|[E ->]]; rewrite E.
  - change (String.prefix "✅" (success_line k)) with true.
    change (String.prefix "❌" (success_line k)) with false.
    cbn [negb List.length]. now rewrite IHs, IHf.
  - change (String.prefix "✅" (failure_line k)) with false.
    change (String.prefix "❌" (failure_line k)) with true.
    cbn [negb List.length]. now rewrite IHs, IHf.
Qed.

(** X3: the report has as many lines starting with the check mark as
    there are entries whose location exists, as many lines starting with
    the cross mark as there are entries whose location does not, and the
    two numbers add up to 18. *)
Theorem marked_lines_match_existence argv environ fs :
  let out := stdout (run_script argv environ fs) in
  let present := fun rel =>
    exists_on_disk fs
      ("/Users/vladislav_k/Code/Personal/MoveIt/MoveIt/" ++ rel) in
  List.length (filter (String.prefix "✅") out)
    = List.length (filter present (dict_keys swift_files)) /\
  List.length (filter (String.prefix "❌") out)
    = List.length (filter (fun rel => negb (present rel)) (dict_keys swift_files)) /\
  List.length (filter (String.prefix "✅") out)
    + List.length (filter (String.prefix "❌") out) = 18.
Proof.
  intros out present. subst out.
  rewrite run_script_stdout, !filter_app, !length_app.
  change (filter (String.prefix "✅") banner) with (@nil string).
  change (filter (String.prefix "❌") banner) with (@nil string).
  change (filter (String.prefix "✅") instructions) with (@nil string).
  change (filter (String.prefix "❌") instructions) with (@nil string).
  cbn [List.length]. rewrite !Nat.add_0_r.
  destruct (marked_lines_count fs (dict_keys swift_files)) as [Hs Hf].
  unfold check_lines. rewrite Hs, Hf.
  change (fun rel => exists_on_disk fs (joined_location rel)) with present.
  change (fun rel => negb (exists_on_disk fs (joined_location rel)))
    with (fun rel => negb (present rel)).
  repeat split.
  pose proof (filter_split_length present (dict_keys swift_files)) as Hsum.
  assert (List.length (dict_keys swift_files) = 18) as Hlen by reflexivity.
  lia.
Qed.

(** X4: when every probed location exists, the report is the banner, the
    18 success lines in mapping order and the instructions; [NOT FOUND]
    occurs nowhere in it. *)
Theorem all_present_report argv environ fs
    (Hall : forall rel, In rel (dict_keys swift_files) ->
       exists_on_disk fs
         ("/Users/vladislav_k/Code/Personal/MoveIt/MoveIt/" ++ rel) = true) :
  stdout (run_script argv environ fs)
  = (banner
     ++ map (fun rel => "✅ MoveIt/" ++ rel)%string (dict_keys swift_files)
     ++ instructions)%list /\
  Forall (fun line => str_contains "NOT FOUND" line = false)
         (stdout (run_script argv environ fs)).
Proof.
  assert (stdout (run_script argv environ fs)
          = (banner ++ map success_line (dict_keys swift_files)
               ++ instructions)%list) as Hout.
  { rewrite run_script_stdout. do 2 f_equal.
    apply map_ext_in. intros rel Hrel. unfold check_line.
    change (joined_location rel)
      with ("/Users/vladislav_k/Code/Personal/MoveIt/MoveIt/" ++ rel).
    now rewrite (Hall rel Hrel). }
  split; [exact Hout|].
  rewrite Hout. apply Forall_forall. intros line Hline.
  assert (forallb (fun l => negb (str_contains "NOT FOUND" l))
            (banner ++ map success_line (dict_keys swift_files)
               ++ instructions)%list = true) as C by (vm_compute; reflexivity).
  rewrite forallb_forall in C. apply negb_true_iff. now apply C.
Qed.

Lemma all_present_report_witness :
  nth_error (stdout (run_script [] [] full_filesystem)) 19
    = Some "✅ MoveIt/Utilities/TimeFormatter.swift" /\
  Forall (fun line => str_contains "NOT FOUND" line = false)
         (stdout (run_script [] [] full_filesystem)).
Proof.
  assert (forall rel, In rel (dict_keys swift_files) ->
            exists_on_disk full_filesystem
              ("/Users/vladislav_k/Code/Personal/MoveIt/MoveIt/" ++ rel) = true)
    as Hall by (intros rel _; reflexivity).
  destruct (all_present_report [] [] full_filesystem Hall) as [Hout Hnone].
  split; [rewrite Hout; reflexivity|exact Hnone].
Defined.

Lemma joined_location_inj a b : joined_location a = joined_location b -> a = b.
Proof.
  change (joined_location a)
    with ("/Users/vladislav_k/Code/Personal/MoveIt/MoveIt/" ++ a).
  change (joined_location b)
    with ("/Users/vladislav_k/Code/Personal/MoveIt/MoveIt/" ++ b).
  apply append_cancel_l.
Qed.

(** X6: whatever [os.stat] answers, the script calls it 18 times, never
    twice on the same path, and only on paths below the project
    subdirectory of the base directory, with no [..] component. *)
Theorem probes_stay_in_project argv environ fs :
  List.length (stat_calls (run_script argv environ fs)) = 18 /\
  NoDup (stat_calls (run_script argv environ fs)) /\
  Forall (fun p =>
            String.prefix "/Users/vladislav_k/Code/Personal/MoveIt/MoveIt/" p
              = true
            /\ str_contains "/../" p = false)
         (stat_calls (run_script argv environ fs)).
Proof.
  rewrite run_script_stat_calls.
  split; [reflexivity|]. split.
  - apply NoDup_map_NoDup_ForallPairs; [|apply swift_files_keys_nodup].
    intros a b _ _. apply joined_location_inj.
  - apply Forall_forall. intros p Hp.
    assert (forallb (fun p =>
              String.prefix "/Users/vladislav_k/Code/Personal/MoveIt/MoveIt/" p
              && negb (str_contains "/../" p))
              (map joined_location (dict_keys swift_files)) = true) as C
      by (vm_compute; reflexivity).
    rewrite forallb_forall in C. specialize (C p Hp).
    apply andb_prop in C as [C1 C2]. apply negb_true_iff in C2. auto.
Qed.

(** ** The stores a run passes through *)

Lemma exactly_ret {A} (a : A) w : runs_exactly (ret a) w a w [].
Proof. reflexivity. Qed.

Lemma exactly_bind {A B} (m : M A) (f : A -> M B) w a w1 t1 b w2 t2 :
  runs_exactly m w a w1 t1 -> runs_exactly (f a) w1 b w2 t2 ->
  runs_exactly (bind m f) w b w2 (t1 ++ t2)%list.
Proof.
  unfold runs_exactly, bind. intros H1 H2. now rewrite H1, H2.
Qed.

Lemma exactly_trace {A} (m : M A) w a w' t1 t2 :
  runs_exactly m w a w' t1 -> t1 = t2 -> runs_exactly m w a w' t2.
Proof. now intros H <-. Qed.

Lemma exactly_print d s out pr :
  runs_exactly (print s) (mkWorld d out pr) tt
    (mkWorld d (out ++ [s])%list pr) [mkWorld d (out ++ [s])%list pr].
Proof. reflexivity. Qed.

Lemma exactly_store d w :
  runs_exactly (store_swift_files d) w tt
    (mkWorld (Some d) (w_stdout w) (w_probed w))
    [mkWorld (Some d) (w_stdout w) (w_probed w)].
Proof. reflexivity. Qed.

Lemma exactly_len d out pr :
  runs_exactly len_swift_files (mkWorld (Some d) out pr) (List.length d)
    (mkWorld (Some d) out pr) [mkWorld (Some d) out pr].
Proof. reflexivity. Qed.

Lemma exactly_next d i out pr :
  runs_exactly (dictiter_next (List.length d) i) (mkWorld (Some d) out pr)
    (nth_error d i) (mkWorld (Some d) out pr) [mkWorld (Some d) out pr].
Proof.
  unfold runs_exactly, dictiter_next, step; simpl.
  now rewrite Nat.eqb_refl.
Qed.

Lemma exactly_exists d fs p out pr :
  runs_exactly (os_path_exists fs p) (mkWorld d out pr)
    (exists_on_disk fs p) (mkWorld d out (pr ++ [p])%list)
    [mkWorld d out (pr ++ [p])%list].
Proof.
  unfold runs_exactly, os_path_exists, try_except, bind, os_stat, step, ret,
    exists_on_disk; simpl.
  destruct (fs p); reflexivity.
Qed.

Section LoopTrace.
Variable d : dict.
Variable body : string -> string -> M unit.
Variables line where_ : string -> string.
Hypothesis body_exactly : forall path name out pr,
  runs_exactly (body path name) (mkWorld (Some d) out pr) tt
    (mkWorld (Some d) (out ++ [line path])%list (pr ++ [where_ path])%list)
    [mkWorld (Some d) out (pr ++ [where_ path])%list;
     mkWorld (Some d) (out ++ [line path])%list (pr ++ [where_ path])%list].

Lemma exactly_for_items_from rounds : forall i out pr,
  i <= List.length d -> List.length d < rounds + i ->
  runs_exactly (for_items_from rounds (List.length d) i body)
    (mkWorld (Some d) out pr) tt
    (mkWorld (Some d)
       (out ++ map line (dict_keys (skipn i d)))%list
       (pr ++ map where_ (dict_keys (skipn i d)))%list)
    (loop_trace d line where_ (dict_keys (skipn i d)) out pr).
Proof.
  induction rounds as [|r IH]; intros i out pr Hle Hlt.
  - exfalso. simpl in Hlt. lia.
  - cbn [for_items_from].
    destruct (nth_error d i) as [[path name]|] eqn:E.
    + rewrite (nth_error_skipn _ _ _ E).
      set (rest := skipn (S i) d).
      cbn [dict_keys map fst loop_trace].
      change (mkWorld (Some d) out pr
              :: mkWorld (Some d) out (pr ++ [where_ path])%list
              :: mkWorld (Some d) (out ++ [line path])%list
                   (pr ++ [where_ path])%list
              :: loop_trace d line where_ (map fst rest)
                   (out ++ [line path])%list (pr ++ [where_ path])%list)
        with ([mkWorld (Some d) out pr]
              ++ [mkWorld (Some d) out (pr ++ [where_ path])%list;
                  mkWorld (Some d) (out ++ [line path])%list
                    (pr ++ [where_ path])%list]
              ++ loop_trace d line where_ (dict_keys rest)
                   (out ++ [line path])%list (pr ++ [where_ path])%list)%list.
      eapply exactly_bind; [apply exactly_next|]. rewrite E.
      eapply exactly_bind; [apply body_exactly|].
      replace (out ++ line path :: map line (map fst rest))%list
        with ((out ++ [line path]) ++ map line (dict_keys rest))%list
        by (rewrite <- app_assoc; reflexivity).
      replace (pr ++ where_ path :: map where_ (map fst rest))%list
        with ((pr ++ [where_ path]) ++ map where_ (dict_keys rest))%list
        by (rewrite <- app_assoc; reflexivity).
      subst rest. apply IH; [|lia].
      apply Nat.le_succ_l, nth_error_Some. congruence.
    + rewrite (nth_error_skipn_none _ _ E).
      cbn [dict_keys map loop_trace]. rewrite !app_nil_r.
      change [mkWorld (Some d) out pr]
        with ([mkWorld (Some d) out pr] ++ [])%list.
      eapply exactly_bind; [apply exactly_next|]. rewrite E.
      apply exactly_ret.
Qed.

Lemma exactly_for_items out pr :
  runs_exactly (for_items body) (mkWorld (Some d) out pr) tt
    (mkWorld (Some d) (out ++ map line (dict_keys d))%list
             (pr ++ map where_ (dict_keys d))%list)
    ([mkWorld (Some d) out pr]
     ++ loop_trace d line where_ (dict_keys d) out pr)%list.
Proof.
  unfold for_items. eapply exactly_bind; [apply exactly_len|].
  apply (exactly_for_items_from (S (List.length d)) 0 out pr); lia.
Qed.
End LoopTrace.

(** Every run passes through the same schedule of stores. *)
Lemma generate_schedule fs :
  trace (generate_file_references fs initial_world)
  = map (world_at fs) run_schedule.
Proof.
  assert (exists w', runs_exactly (generate_file_references fs) initial_world
                       tt w' (map (world_at fs) run_schedule)) as [w' H].
  { eexists. unfold generate_file_references.
    eapply exactly_trace.
    - eapply exactly_bind; [apply exactly_store|].
      eapply exactly_bind; [apply exactly_print|].
      eapply exactly_bind; [apply exactly_print|].
      eapply exactly_bind.
      { apply exactly_for_items
          with (line := check_line fs) (where_ := joined_location).
        intros path name out pr. cbv zeta.
        change [mkWorld (Some swift_files) out (pr ++ [joined_location path])%list;
                mkWorld (Some swift_files) (out ++ [check_line fs path])%list
                  (pr ++ [joined_location path])%list]
          with ([mkWorld (Some swift_files) out
                   (pr ++ [joined_location path])%list]
                ++ [mkWorld (Some swift_files) (out ++ [check_line fs path])%list
                      (pr ++ [joined_location path])%list])%list.
        eapply exactly_bind; [apply exactly_exists|].
        change ("/Users/vladislav_k/Code/Personal/MoveIt/" ++ "MoveIt/" ++ path)
          with (joined_location path).
        unfold check_line.
        destruct (exists_on_disk fs (joined_location path));
          apply exactly_print. }
      do 8 (eapply exactly_bind; [apply exactly_print|]).
      apply exactly_print.
    - unfold world_at, check_lines, initial_world.
      cbn [w_stdout w_probed].
      generalize (check_line fs). intros line.
      vm_compute. reflexivity. }
  unfold runs_exactly in H. now rewrite H.
Qed.

Lemma report_length fs :
  List.length (banner ++ check_lines fs ++ instructions)%list = 29.
Proof. rewrite !length_app, check_lines_length. reflexivity. Qed.

Lemma in_step_world_at fs n m :
  n <= 29 -> m <= 18 ->
  Nat.min 18 (n - 2) <= m -> m <= Nat.min 18 (n - 1) ->
  in_step_with (banner ++ check_lines fs ++ instructions)%list
               (map joined_location (dict_keys swift_files))
               (world_at fs (n, m)).
Proof.
  intros Hn Hm Hlo Hhi.
  unfold in_step_with, world_at. cbn [w_stdout w_probed fst snd].
  rewrite !length_firstn, report_length.
  replace (List.length (map joined_location (dict_keys swift_files)))
    with 18 by reflexivity.
  rewrite (Nat.min_l n 29 Hn), (Nat.min_l m 18 Hm).
  repeat split; assumption.
Qed.

Lemma run_schedule_bounds :
  forallb (fun nm =>
    Nat.leb (fst nm) 29 && Nat.leb (snd nm) 18
    && Nat.leb (Nat.min 18 (fst nm - 2)) (snd nm)
    && Nat.leb (snd nm) (Nat.min 18 (fst nm - 1)))
    run_schedule = true.
Proof. reflexivity. Qed.

(** X7: a run only ever adds to what it has printed and probed, and it
    prints the line of an entry right after probing it: in every store
    the run passes through, the lines printed so far are the first [n]
    lines of the final report and the probes made so far the first [m]
    of the final probes, with [min 18 (n - 2) <= m <= min 18 (n - 1)].
    So nothing is probed before the banner is out, an entry is probed
    only after the lines of all earlier entries are printed, and the
    instructions start only after the eighteenth probe and its line. *)
Theorem run_is_incremental fs :
  Forall (in_step_with
            (w_stdout (final (module_body fs "__main__" initial_world)))
            (w_probed (final (module_body fs "__main__" initial_world))))
         (trace (module_body fs "__main__" initial_world)).
Proof.
  rewrite module_body_main.
  destruct (generate_runs fs) as (_ & F & _). rewrite F.
  cbn [w_stdout w_probed].
  rewrite generate_schedule. apply Forall_map, Forall_forall.
  intros [n m] Hin.
  pose proof run_schedule_bounds as B.
  rewrite forallb_forall in B. specialize (B (n, m) Hin).
  cbn [fst snd] in B.
  apply andb_prop in B as [B B4]. apply andb_prop in B as [B B3].
  apply andb_prop in B as [B1 B2].
  apply Nat.leb_le in B1, B2, B3, B4.
  now apply in_step_world_at.
Qed.

Lemma line_feeds_append a b :
  line_feeds (a ++ b) = line_feeds a + line_feeds b.
Proof.
  induction a as [|c a IH]; [reflexivity|].
  simpl. rewrite IH. lia.
Qed.

Lemma line_feeds_text (lines : list string) :
  line_feeds (fold_right (fun s rest => s ++ LF ++ rest) EmptyString lines)
  = List.length lines + list_sum (map line_feeds lines).
Proof.
  induction lines as [|s lines IH]; [reflexivity|].
  cbn [fold_right map List.length].
  rewrite !line_feeds_append, IH.
  change (line_feeds LF) with 1.
  unfold list_sum. cbn [fold_right]. lia.
Qed.

Lemma check_lines_no_feed fs :
  map line_feeds (check_lines fs) = repeat 0 18.
Proof.
  assert (forallb (fun k => Nat.eqb (line_feeds (success_line k)) 0
                            && Nat.eqb (line_feeds (failure_line k)) 0)
                  (dict_keys swift_files) = true) as C by reflexivity.
  rewrite forallb_forall in C.
  unfold check_lines. rewrite map_map.
  transitivity (map (fun _ : string => 0) (dict_keys swift_files));
    [|reflexivity].
  apply map_ext_in. intros k Hk. specialize (C k Hk).
  apply andb_prop in C as [Cs Cf]. apply Nat.eqb_eq in Cs, Cf.
  destruct (check_line_cases fs k) as [[_ ->]|[_ ->]]; assumption.
Qed.

(** X8: whatever files exist, the 29 [print] calls of a run write 32
    lines of text: the three prints whose argument starts with a line
    feed each put an empty line in front of their text, and no other
    print writes more than one line. *)
Theorem report_text_has_32_lines argv environ fs :
  List.length (stdout (run_script argv environ fs)) = 29 /\
  line_feeds (stdout_text (run_script argv environ fs)) = 32 /\
  map line_feeds (stdout (run_script argv environ fs))
  = (repeat 0 20 ++ [1; 1] ++ repeat 0 6 ++ [1])%list.
Proof.
  unfold stdout_text. rewrite line_feeds_text, run_script_stdout.
  split; [apply report_length|].
  rewrite !map_app, (check_lines_no_feed fs), report_length.
  split; reflexivity.
Qed.

(** X9: a failure of [os.stat] never reaches the caller, whatever its
    reason: when every path under the base directory fails with the same
    error [e] (permission denied, not a directory, too many links, ...),
    the run still completes with exit status 0 and reports every entry
    as [NOT FOUND], exactly as for a missing directory. *)
Theorem stat_errors_read_as_not_found argv environ fs e
    (Hfail : forall rest, fs (base_directory ++ rest) = stat_error e) :
  crashed (run_script argv environ fs) = false /\
  exit_status (run_script argv environ fs) = 0 /\
  stdout (run_script argv environ fs)
  = (banner
     ++ map (fun rel => "❌ MoveIt/" ++ rel ++ " - NOT FOUND")%string
            (dict_keys swift_files)
     ++ instructions)%list.
Proof.
  rewrite run_script_value. cbn [crashed exit_status stdout].
  repeat split. do 2 f_equal.
  apply map_ext. intros k. unfold check_line, exists_on_disk.
  change (joined_location k)
    with (base_directory ++ "/" ++ project_subdirectory ++ "/" ++ k).
  now rewrite Hfail.
Qed.

Lemma stat_errors_read_as_not_found_witness :
  crashed (run_script [] [] (failing_filesystem EACCES)) = false /\
  exit_status (run_script [] [] (failing_filesystem EACCES)) = 0 /\
  nth_error (stdout (run_script [] [] (failing_filesystem EACCES))) 2
    = Some "❌ MoveIt/Models/Phase.swift - NOT FOUND".
Proof.
  assert (forall rest,
            failing_filesystem EACCES (base_directory ++ rest)
            = stat_error EACCES) as Hfail by (intros rest; reflexivity).
  destruct (stat_errors_read_as_not_found [] [] _ EACCES Hfail)
    as (Hc & He & Hout).
  split; [exact Hc|]. split; [exact He|]. rewrite Hout. reflexivity.
Defined.
